(** * Root route and modal of the storefront front end

  A shallow embedding of the root route module ([shouldRevalidate],
  [loader], [loadCriticalData], [loadDeferredData], [getLayoutData],
  the locale choice of [MainLayout]) and of the [NcModal] component,
  with the properties of their data-loading and revalidation contract.

  JavaScript objects are finite maps from property names to values,
  promises are handles on the external call they come from, and an
  asynchronous function is a computation that threads the trace of
  what it issued and observed and that may throw. *)

From stdpp Require Import base option list strings gmap fin_maps pretty.

Open Scope string_scope.

(** ** JavaScript values *)

Module Js.

(** The values that flow through the route module.  An object literal
    that is only passed along keeps its properties in source order. *)
#[warnings="-register-all"]
Inductive value : Type :=
| Undefined
| Null
| Bool (b : bool)
| Num (n : Z)
| Str (s : string)
| Obj (props : list (string * value)).

(** [ToBoolean]: what [if (v)], [v && w] and [!!v] test. *)
Definition truthy (v : value) : bool :=
  match v with
  | Undefined | Null => false
  | Bool b => b
  | Num n => negb (n =? 0)%Z
  | Str s => negb (String.eqb s "")
  | Obj _ => true
  end.

(** [v == null]: what [??] and [?.] test. *)
Definition nullish (v : value) : bool :=
  match v with
  | Undefined | Null => true
  | _ => false
  end.

(** [a ?? b] *)
Definition coalesce (a b : value) : value :=
  if nullish a then b else a.

Fixpoint assoc (k : string) (props : list (string * value)) : value :=
  match props with
  | [] => Undefined
  | (k', v) :: rest => if String.eqb k k' then v else assoc k rest
  end.

(** [v.k] on a value that is not nullish: a missing property, or a
    property of a primitive, reads as [undefined]. *)
Definition prop (k : string) (v : value) : value :=
  match v with
  | Obj props => assoc k props
  | _ => Undefined
  end.

(** What a [throw] or a rejected promise carries. *)
Inductive error : Type :=
| TypeError (msg : string)
| InvariantError (msg : string)
| ApiError (msg : string)
| DeferredUndefined (key : string).

End Js.

(** ** shouldRevalidate *)

Module Revalidate.

(** A [URL] object; [toString()] serialises it to its [href]. *)
Record URL : Type := { href : string }.

Definition toString (u : URL) : string := href u.

(** The argument of a [ShouldRevalidateFunction], restricted to the
    properties a navigation event is described by: the method of the
    submission that triggered it ([undefined] when there is none), the
    two URLs, and the router's flag asking for a reload. *)
Record NavEvent : Type := {
  formMethod : option string;
  currentUrl : URL;
  nextUrl : URL;
  defaultShouldRevalidate : bool;
}.

(** The ambient state of the page: the global bindings a script could
    read or write. *)
Definition Ambient : Type := gmap string Js.value.

(** Computations over the ambient state. *)
Definition JS (A : Type) : Type := Ambient → A * Ambient.

Definition js_ret {A} (a : A) : JS A := λ g, (a, g).
Definition js_bind {A B} (m : JS A) (k : A → JS B) : JS B :=
  λ g, let '(a, g') := m g in k a g'.
Definition readGlobal (x : string) : JS Js.value :=
  λ g, (default Js.Undefined (g !! x), g).
Definition writeGlobal (x : string) (v : Js.value) : JS unit :=
  λ g, (tt, <[x := v]> g).

#[export] Instance JS_ret : MRet JS := @js_ret.
#[export] Instance JS_bind : MBind JS := λ A B k m, js_bind m k.

(** [formMethod] is a string or [undefined]: its truth value (the empty
    string and [undefined] are falsy) and its strict comparison with a
    string literal. *)
Definition truthyMethod (m : option string) : bool :=
  match m with
  | None => false
  | Some s => negb (String.eqb s "")
  end.

Definition strictNe (m : option string) (lit : string) : bool :=
  match m with
  | None => true
  | Some s => negb (String.eqb s lit)
  end.

(** The body of [shouldRevalidate], statement by statement. *)
Definition shouldRevalidate_body (ev : NavEvent) : JS bool :=
  if truthyMethod (formMethod ev) && strictNe (formMethod ev) "GET"
  then mret true
  else
    from ← mret (toString (currentUrl ev));
    to ← mret (toString (nextUrl ev));
    if String.eqb from to then mret true
    else mret false.

(** The value a call returns (it reads no global, so any ambient state
    will do to run it). *)
Definition shouldRevalidate (ev : NavEvent) : bool :=
  fst (shouldRevalidate_body ev ∅).

(** The decision as the routing contract words it: three rules, the
    first that matches wins. *)
Definition pureRead (m : string) : bool := String.eqb m "GET".

Definition methodPresent (m : option string) : bool :=
  match m with Some _ => true | None => false end.

Definition methodMutates (m : option string) : bool :=
  match m with Some s => negb (pureRead s) | None => false end.

Definition sameUrl (a b : URL) : bool := String.eqb (href a) (href b).

Definition decision (ev : NavEvent) : bool :=
  if methodPresent (formMethod ev) && methodMutates (formMethod ev) then true
  else if sameUrl (currentUrl ev) (nextUrl ev) then true
  else false.

(** A method, when there is one, is an HTTP method name: not the empty
    string. *)
Definition wellFormed (ev : NavEvent) : Prop :=
  formMethod ev ≠ Some "".

End Revalidate.

(** ** The root loader *)

Module Root.

(** The calls the loader makes on the capabilities of its context. *)
Inductive Fetch : Type :=
| IsLoggedIn           (* customerAccount.isLoggedIn() *)
| HeaderQuery          (* storefront.query(HEADER_QUERY, ...) *)
| FooterQuery          (* storefront.query(FOOTER_QUERY, ...) *)
| CartGet              (* cart.get() *)
| LayoutQuery          (* storefront.query(LAYOUT_QUERY, ...) *)
| OkendoProviderData.  (* getOkendoProviderData({...}) *)

Definition deferredFetch (f : Fetch) : bool :=
  match f with
  | IsLoggedIn | HeaderQuery | FooterQuery | CartGet => true
  | LayoutQuery | OkendoProviderData => false
  end.

Definition criticalFetch (f : Fetch) : bool := negb (deferredFetch f).

(** How a promise ends. *)
Inductive Outcome : Type :=
| Fulfilled (v : Js.value)
| Rejected (e : Js.error).

(** What the services do during one request: how each call ends, and
    when (in ticks after the request starts).  When the two critical
    promises settle in the same tick, the order in which the loader sees
    them is the scheduler's: [layoutFirstOnTie] tells which. *)
Record World : Type := {
  outcome : Fetch → Outcome;
  latency : Fetch → nat;
  layoutFirstOnTie : bool;
}.

(** A promise: already settled (an async function that threw before its
    first [await]), or settling when an external call does, through the
    reaction attached to it. *)
Inductive Promise : Type :=
| Already (o : Outcome)
| OnCall (f : Fetch) (reaction : Outcome → Outcome).

Definition settle (w : World) (p : Promise) : Outcome :=
  match p with
  | Already o => o
  | OnCall f reaction => reaction (outcome w f)
  end.

Definition settledAt (w : World) (p : Promise) : nat :=
  match p with
  | Already _ => 0
  | OnCall f _ => latency w f
  end.

(** A property of the loader data: a plain value, or a promise that the
    response streams when it settles. *)
Inductive Field : Type :=
| Plain (v : Js.value)
| Pending (p : Promise).

(** An object literal [{k1: v1, ..., kn: vn}]: a later key wins. *)
Definition object (props : list (string * Field)) : gmap string Field :=
  foldl (λ o kv, <[kv.1 := kv.2]> o) ∅ props.

(** [{...o, k1: v1, ...}]: the spread object first, then the literal's
    own properties over it. *)
Definition spread (o : gmap string Field) (props : list (string * Field))
  : gmap string Field :=
  foldl (λ o kv, <[kv.1 := kv.2]> o) o props.

(** The two promises handed to [Promise.all]. *)
Inductive Critical : Type := CLayout | COkendo.

(** What a run of the loader does and observes, in order. *)
Inductive Event : Type :=
| Issued (f : Fetch)
| CriticalSettled (c : Critical)
| Joined
| Returned.

(** A function body: it extends the trace and returns or throws. *)
Inductive Result (A : Type) : Type :=
| Ok (a : A)
| Throw (e : Js.error).
Arguments Ok {A} a.
Arguments Throw {A} e.

Definition Run (A : Type) : Type := list Event → Result A * list Event.

Definition run_ret {A} (a : A) : Run A := λ t, (Ok a, t).
Definition run_bind {A B} (m : Run A) (k : A → Run B) : Run B :=
  λ t, match m t with
       | (Ok a, t') => k a t'
       | (Throw e, t') => (Throw e, t')
       end.
Definition throw {A} (e : Js.error) : Run A := λ t, (Throw e, t).
Definition log (ev : Event) : Run unit := λ t, (Ok tt, (t ++ [ev])%list).

#[export] Instance Run_ret : MRet Run := @run_ret.
#[export] Instance Run_bind : MBind Run := λ A B k m, run_bind m k.

(** Calling a service: the call is issued and its promise returned. *)
Definition call (f : Fetch) : Run Promise :=
  _ ← log (Issued f); mret (OnCall f id).

(** *** The request and its context *)

(** [storefront.i18n] *)
Record I18n : Type := { language : string; country : string }.

Definition i18nValue (l : I18n) : Js.value :=
  Js.Obj [("language", Js.Str (language l)); ("country", Js.Str (country l))].

(** [context.env]: each variable is a string, or [undefined] when it is
    not configured. *)
Record Env : Type := {
  PUBLIC_STORE_DOMAIN : Js.value;
  PUBLIC_SHOPIFY_STORE_DOMAIN : Js.value;
  PUBLIC_STORE_CDN_STATIC_URL : Js.value;
  PUBLIC_IMAGE_FORMAT_FOR_PRODUCT_OPTION : Js.value;
  PUBLIC_OKENDO_SUBSCRIBER_ID : Js.value;
  PUBLIC_STOREFRONT_ID : Js.value;
  PUBLIC_CHECKOUT_DOMAIN : Js.value;
  PUBLIC_STOREFRONT_API_TOKEN : Js.value;
}.

Definition envValue (e : Env) : Js.value :=
  Js.Obj [("PUBLIC_STORE_DOMAIN", PUBLIC_STORE_DOMAIN e);
          ("PUBLIC_SHOPIFY_STORE_DOMAIN", PUBLIC_SHOPIFY_STORE_DOMAIN e);
          ("PUBLIC_STORE_CDN_STATIC_URL", PUBLIC_STORE_CDN_STATIC_URL e);
          ("PUBLIC_IMAGE_FORMAT_FOR_PRODUCT_OPTION",
             PUBLIC_IMAGE_FORMAT_FOR_PRODUCT_OPTION e);
          ("PUBLIC_OKENDO_SUBSCRIBER_ID", PUBLIC_OKENDO_SUBSCRIBER_ID e);
          ("PUBLIC_STOREFRONT_ID", PUBLIC_STOREFRONT_ID e);
          ("PUBLIC_CHECKOUT_DOMAIN", PUBLIC_CHECKOUT_DOMAIN e);
          ("PUBLIC_STOREFRONT_API_TOKEN", PUBLIC_STOREFRONT_API_TOKEN e)].

(** [AppLoadContext]: the environment and the locale the storefront
    client was created with ([None] when [storefront.i18n] is
    [undefined]); the [cart], [customerAccount] and [storefront]
    services answer through the [World]. *)
Record AppLoadContext : Type := {
  env : Env;
  i18n : option I18n;
}.

Record Request : Type := { url : string }.

Record LoaderFunctionArgs : Type := {
  request : Request;
  context : AppLoadContext;
}.

(** What the module imports and this development leaves open:
    [seoPayload.root] of [~/lib/seo.server] (given [layout.shop] and
    [request.url]), [getShopAnalytics] of the framework (given
    [env.PUBLIC_STOREFRONT_ID]; the storefront client it also receives is
    the context's own), and the [DEFAULT_LOCALE] constant of
    [./lib/utils].  The two functions are taken to return. *)
Record Imports : Type := {
  seoPayload_root : Js.value → string → Js.value;
  getShopAnalytics : Js.value → Field;
  DEFAULT_LOCALE : Js.value;
}.

(** Reading through [storefront.i18n]: the destructuring
    [const {language, country} = storefront.i18n] and the property read
    [storefront.i18n.country] both throw a [TypeError] on [undefined]. *)
Definition i18nOf (ctx : AppLoadContext) (complaint : string) : Result I18n :=
  match i18n ctx with
  | Some l => Ok l
  | None => Throw (Js.TypeError complaint)
  end.

Definition lift {A} (r : Result A) : Run A := λ t, (r, t).

(** [invariant(condition, message)] of tiny-invariant. *)
Definition invariant (condition : Js.value) (message : string) : Result unit :=
  if Js.truthy condition then Ok tt else Throw (Js.InvariantError message).

(** *** getLayoutData *)

(** The part of [getLayoutData] after its [await]: what its promise
    does with the outcome of the layout query. *)
Definition getLayoutData_resume (queried : Outcome) : Outcome :=
  match queried with
  | Rejected e => Rejected e
  | Fulfilled data =>
      match invariant data "No data returned from Shopify API" with
      | Throw e => Rejected e
      | Ok _ => Fulfilled data
      end
  end.

(** The call [getLayoutData(context)]: an async function, so a throw
    while the query's variables are read rejects the promise it
    returns. *)
Definition getLayoutData (ctx : AppLoadContext) : Run Promise :=
  match i18nOf ctx "Cannot read properties of undefined (reading 'country')" with
  | Throw e => mret (Already (Rejected e))
  | Ok _ =>
      _ ← log (Issued LayoutQuery);
      mret (OnCall LayoutQuery getLayoutData_resume)
  end.

(** *** Promise.all and await *)

(** The promise settles and the awaiting code sees how. *)
Definition observe (w : World) (c : Critical) (p : Promise) : Run Js.value :=
  _ ← log (CriticalSettled c);
  match settle w p with
  | Fulfilled v => mret v
  | Rejected e => throw e
  end.

(** Whether a promise settling at tick [a] is seen before one settling
    at tick [b]: the earlier tick first, the scheduler's choice within a
    tick. *)
Definition seenFirst (w : World) (a b : nat) : bool :=
  (a <? b)%nat || ((a =? b)%nat && layoutFirstOnTie w).

(** [await Promise.all([layoutP, okendoP])]: the promises are seen to
    settle in the order they do; the first rejection rejects the whole
    at once, and when both are fulfilled the values come in array
    order. *)
Definition awaitAll (w : World) (layoutP okendoP : Promise)
  : Run (Js.value * Js.value) :=
  if seenFirst w (settledAt w layoutP) (settledAt w okendoP) then
    layout ← observe w CLayout layoutP;
    okendo ← observe w COkendo okendoP;
    _ ← log Joined;
    mret (layout, okendo)
  else
    okendo ← observe w COkendo okendoP;
    layout ← observe w CLayout layoutP;
    _ ← log Joined;
    mret (layout, okendo).

(** *** defer *)

(** What the tracking promise of [defer] does when the promise it
    tracks settles: a value is passed on, an error is passed on, and
    [undefined] is turned into an error that names the key. *)
Definition onSettle (key : string) (settled : Outcome) : Outcome :=
  match settled with
  | Rejected e => Rejected e
  | Fulfilled Js.Undefined => Rejected (Js.DeferredUndefined key)
  | Fulfilled v => Fulfilled v
  end.

(** [trackPromise(key, value)]: a value that is not a promise is kept;
    a promise is replaced by a tracking promise of its own. *)
Definition trackPromise (key : string) (value : Field) : Field :=
  match value with
  | Plain v => Plain v
  | Pending (Already o) => Pending (Already (onSettle key o))
  | Pending (OnCall f reaction) => Pending (OnCall f (onSettle key ∘ reaction))
  end.

(** [defer(data)]: every property goes through [trackPromise]. *)
Definition defer (data : gmap string Field) : gmap string Field :=
  map_imap (λ key value, Some (trackPromise key value)) data.

Section Loader.

Context (imp : Imports) (w : World).

(** *** loadCriticalData *)
Definition loadCriticalData (args : LoaderFunctionArgs)
  : Run (gmap string Field) :=
  let ctx := context args in
  layoutP ← getLayoutData ctx;
  okendoP ← call OkendoProviderData;
  '(layout, okendoProviderData) ← awaitAll w layoutP okendoP;
  let seo := seoPayload_root imp (Js.prop "shop" layout) (url (request args)) in
  mret (object [
    ("layout", Plain layout);
    ("seo", Plain seo);
    ("shop", getShopAnalytics imp (PUBLIC_STOREFRONT_ID (env ctx)));
    ("consent", Plain (Js.Obj [
        ("checkoutDomain", PUBLIC_CHECKOUT_DOMAIN (env ctx));
        ("storefrontAccessToken", PUBLIC_STOREFRONT_API_TOKEN (env ctx));
        ("withPrivacyBanner", Js.Bool true)]));
    ("selectedLocale", Plain (from_option i18nValue Js.Undefined (i18n ctx)));
    ("okendoProviderData", Plain okendoProviderData)]).

(** *** loadDeferredData *)
Definition loadDeferredData (args : LoaderFunctionArgs)
  : Run (gmap string Field) :=
  let ctx := context args in
  isLoggedInPromise ← call IsLoggedIn;
  _ ← lift (i18nOf ctx "Cannot destructure property 'language' of 'storefront.i18n' as it is undefined.");
  headerPromise ← call HeaderQuery;
  footerPromise ← call FooterQuery;
  cart ← call CartGet;
  mret (object [
    ("isLoggedIn", Pending isLoggedInPromise);
    ("isLoggedInPromise", Pending isLoggedInPromise);
    ("cart", Pending cart);
    ("headerPromise", Pending headerPromise);
    ("footerPromise", Pending footerPromise)]).

(** *** loader *)

Definition loader_body (args : LoaderFunctionArgs) : Run (gmap string Field) :=
  let e := env (context args) in
  deferredData ← loadDeferredData args;
  criticalData ← loadCriticalData args;
  _ ← log Returned;
  mret (defer (spread (criticalData ∪ deferredData) [
    ("env", Plain (envValue e));
    ("publicStoreDomain", Plain (PUBLIC_STORE_DOMAIN e));
    ("publicStoreSubdomain", Plain (PUBLIC_SHOPIFY_STORE_DOMAIN e));
    ("publicStoreCdnStaticUrl", Plain (PUBLIC_STORE_CDN_STATIC_URL e));
    ("publicImageFormatForProductOption",
       Plain (PUBLIC_IMAGE_FORMAT_FOR_PRODUCT_OPTION e));
    ("publicOkendoSubcriberId", Plain (PUBLIC_OKENDO_SUBSCRIBER_ID e))])).

(** One request: the loader runs from an empty trace. *)
Definition loader (args : LoaderFunctionArgs)
  : Result (gmap string Field) * list Event :=
  loader_body args [].

End Loader.

(** *** The locale MainLayout renders with *)

(** [data?.selectedLocale ?? DEFAULT_LOCALE], where [data] is the root
    loader data, [undefined] when the loader did not return.  A missing
    property reads as [undefined]; only [undefined] and [null] give way
    to the default. *)
Definition layoutLocale (imp : Imports) (data : option (gmap string Field))
  : Field :=
  match data ≫= (.!! "selectedLocale") with
  | None => Plain (DEFAULT_LOCALE imp)
  | Some (Plain v) => Plain (Js.coalesce v (DEFAULT_LOCALE imp))
  | Some (Pending p) => Pending p
  end.

(** [useRouteLoaderData('root')]: the data of a loader that returned,
    [undefined] after one that threw. *)
Definition loaderData (r : Result (gmap string Field) * list Event)
  : option (gmap string Field) :=
  match r.1 with
  | Ok data => Some data
  | Throw _ => None
  end.

(** The outbound record of a request that succeeds: what [defer] makes
    of the critical values, the promises of the deferred calls, and the
    environment values passed through. *)
Definition pageData (imp : Imports) (args : LoaderFunctionArgs)
    (locale : I18n) (layout okendoProviderData : Js.value)
  : gmap string Field :=
  let e := env (context args) in
  defer (object [
    ("layout", Plain layout);
    ("seo", Plain (seoPayload_root imp (Js.prop "shop" layout)
                     (url (request args))));
    ("shop", getShopAnalytics imp (PUBLIC_STOREFRONT_ID e));
    ("consent", Plain (Js.Obj [
        ("checkoutDomain", PUBLIC_CHECKOUT_DOMAIN e);
        ("storefrontAccessToken", PUBLIC_STOREFRONT_API_TOKEN e);
        ("withPrivacyBanner", Js.Bool true)]));
    ("selectedLocale", Plain (i18nValue locale));
    ("okendoProviderData", Plain okendoProviderData);
    ("isLoggedIn", Pending (OnCall IsLoggedIn id));
    ("isLoggedInPromise", Pending (OnCall IsLoggedIn id));
    ("cart", Pending (OnCall CartGet id));
    ("headerPromise", Pending (OnCall HeaderQuery id));
    ("footerPromise", Pending (OnCall FooterQuery id));
    ("env", Plain (envValue e));
    ("publicStoreDomain", Plain (PUBLIC_STORE_DOMAIN e));
    ("publicStoreSubdomain", Plain (PUBLIC_SHOPIFY_STORE_DOMAIN e));
    ("publicStoreCdnStaticUrl", Plain (PUBLIC_STORE_CDN_STATIC_URL e));
    ("publicImageFormatForProductOption",
       Plain (PUBLIC_IMAGE_FORMAT_FOR_PRODUCT_OPTION e));
    ("publicOkendoSubcriberId", Plain (PUBLIC_OKENDO_SUBSCRIBER_ID e))]).

(** *** Reading a trace *)

#[export] Instance Fetch_eq_dec : EqDecision Fetch.
Proof. solve_decision. Defined.
#[export] Instance Critical_eq_dec : EqDecision Critical.
Proof. solve_decision. Defined.
#[export] Instance Event_eq_dec : EqDecision Event.
Proof. solve_decision. Defined.

(** Some [a] occurs in the trace strictly before some [b]. *)
Fixpoint before (a b : Event) (t : list Event) : bool :=
  match t with
  | [] => false
  | e :: rest =>
      (bool_decide (e = a) && bool_decide (b ∈ rest)) || before a b rest
  end.

(** The property of the loader data that holds the promise of a
    deferred call. *)
Definition deferredKey (f : Fetch) : option string :=
  match f with
  | IsLoggedIn => Some "isLoggedIn"
  | CartGet => Some "cart"
  | HeaderQuery => Some "headerPromise"
  | FooterQuery => Some "footerPromise"
  | LayoutQuery | OkendoProviderData => None
  end.

(** Two worlds that differ at most in what the deferred calls do. *)
Definition sameCritical (w w' : World) : Prop :=
  layoutFirstOnTie w' = layoutFirstOnTie w
  ∧ ∀ f, criticalFetch f = true →
      outcome w' f = outcome w f ∧ latency w' f = latency w f.

(** *** The loader contract, as the orchestrator's description words it *)

(** Each deferred handle of the returned data resolves, whatever its
    call did. *)
Definition deferredFailuresAbsorbed (imp : Imports) (w : World)
    (args : LoaderFunctionArgs) : Prop :=
  ∀ data t, loader imp w args = (Ok data, t) →
    ∀ f key, deferredKey f = Some key →
      ∃ p v, data !! key = Some (Pending p) ∧ settle w p = Fulfilled v.



(** No deferred call is issued until every critical promise settled. *)
Definition joinBeforeDeferred (t : list Event) : Prop :=
  ∀ f c, deferredFetch f = true → Issued f ∈ t →
    before (CriticalSettled c) (Issued f) t = true.


(** The six calls, in the order a run with a locale issues them. *)
Definition issuedCalls : list Event :=
  [Issued IsLoggedIn; Issued HeaderQuery; Issued FooterQuery; Issued CartGet;
   Issued LayoutQuery; Issued OkendoProviderData].

(** The order in which the two critical promises are seen to settle. *)
Definition settleOrder (w : World) : list Event :=
  if seenFirst w (latency w LayoutQuery) (latency w OkendoProviderData)
  then [CriticalSettled CLayout; CriticalSettled COkendo]
  else [CriticalSettled COkendo; CriticalSettled CLayout].

End Root.

(** ** The modal *)

Module NcModal.

(** The props that bear on visibility: [isOpenProp] ([None] when the
    caller leaves it [undefined]) and whether [onCloseModal] is given. *)
Record Props : Type := {
  isOpenProp : option bool;
  onCloseModal : bool;
}.

(** [!!isOpenProp] *)
Definition notNot (p : option bool) : bool :=
  match p with
  | Some b => b
  | None => false
  end.

(** [typeof isOpenProp !== 'boolean'] *)
Definition notBoolean (p : option bool) : bool :=
  match p with
  | Some _ => false
  | None => true
  end.

(** A mounted component: the props of its last render, the [isOpen]
    state, the dependency the effect last ran with ([None] before its
    first run), and how often [onCloseModal] was called. *)
Record Instance : Type := {
  props : Props;
  isOpen : bool;
  effectDeps : option (option bool);
  closeCalls : nat;
}.

Definition setIsOpen (b : bool) (s : Instance) : Instance :=
  {| props := props s; isOpen := b;
     effectDeps := effectDeps s; closeCalls := closeCalls s |}.

(** [closeModal()] *)
Definition closeModal (s : Instance) : Instance :=
  let s' := if notBoolean (isOpenProp (props s)) then setIsOpen false s else s in
  if onCloseModal (props s)
  then {| props := props s'; isOpen := isOpen s';
          effectDeps := effectDeps s'; closeCalls := S (closeCalls s') |}
  else s'.

(** [openModal()] *)
Definition openModal (s : Instance) : Instance :=
  if notBoolean (isOpenProp (props s)) then setIsOpen true s else s.

(** The effect [useEffect(() => setIsOpen(!!isOpenProp), [isOpenProp])]
    after a render: it runs on mount and whenever the dependency is not
    the one of its last run. *)
Definition flushEffect (s : Instance) : Instance :=
  let dep := isOpenProp (props s) in
  if bool_decide (effectDeps s = Some dep) then s
  else {| props := props s; isOpen := notNot dep;
          effectDeps := Some dep; closeCalls := closeCalls s |}.

(** A render with the props the parent passes; state is kept. *)
Definition render (p : Props) (s : Instance) : Instance :=
  {| props := p; isOpen := isOpen s;
     effectDeps := effectDeps s; closeCalls := closeCalls s |}.

(** Mounting: [useState(!!isOpenProp)], then the effect. *)
Definition mount (p : Props) : Instance :=
  flushEffect {| props := p; isOpen := notNot (isOpenProp p);
                 effectDeps := None; closeCalls := 0 |}.

(** What happens to a mounted modal. *)
Inductive Action : Type :=
| Open                 (* the trigger calls openModal *)
| Close                (* the dialog, backdrop or button calls closeModal *)
| Rerender (p : Props).  (* the parent renders it again *)

Definition step (s : Instance) (a : Action) : Instance :=
  match a with
  | Open => openModal s
  | Close => closeModal s
  | Rerender p => flushEffect (render p s)
  end.

Definition run (p : Props) (acts : list Action) : Instance :=
  foldl step (mount p) acts.

(** [show={isOpen}] *)
Definition visible (s : Instance) : bool := isOpen s.

(** The actions leave [isOpenProp] undefined. *)
Definition uncontrolled (a : Action) : bool :=
  match a with
  | Rerender p => notBoolean (isOpenProp p)
  | _ => true
  end.

(** What the last [Open] or [Close] of a history asks for, [start] when
    there is none. *)
Definition lastToggle (start : bool) (acts : list Action) : bool :=
  foldl (λ b a, match a with Open => true | Close => false | Rerender _ => b end)
        start acts.

(** What holds of a modal between two actions: the effect has run for
    the props of the last render, and a boolean [isOpenProp] is what
    [isOpen] holds. *)
Definition settled (s : Instance) : Prop :=
  effectDeps s = Some (isOpenProp (props s))
  ∧ ∀ b, isOpenProp (props s) = Some b → isOpen s = b.

(** A modal the parent controls, and one it leaves alone. *)
Definition controlledProps (b : bool) : Props :=
  {| isOpenProp := Some b; onCloseModal := true |}.

Definition freeProps : Props :=
  {| isOpenProp := None; onCloseModal := false |}.

End NcModal.

(** ** Sample requests *)

Module Sample.
Import Root.

Definition imports : Imports := {|
  seoPayload_root := λ shop u,
    Js.Obj [("title", Js.prop "name" shop); ("url", Js.Str u)];
  getShopAnalytics := λ id, Plain (Js.Obj [("shopId", id)]);
  DEFAULT_LOCALE := Js.Obj [("language", Js.Str "EN"); ("country", Js.Str "US")];
|}.

Definition environment : Env := {|
  PUBLIC_STORE_DOMAIN := Js.Str "shop.example";
  PUBLIC_SHOPIFY_STORE_DOMAIN := Js.Str "shop.myshopify.com";
  PUBLIC_STORE_CDN_STATIC_URL := Js.Str "https://cdn.example";
  PUBLIC_IMAGE_FORMAT_FOR_PRODUCT_OPTION := Js.Str "png";
  PUBLIC_OKENDO_SUBSCRIBER_ID := Js.Str "subscriber";
  PUBLIC_STOREFRONT_ID := Js.Str "1";
  PUBLIC_CHECKOUT_DOMAIN := Js.Str "checkout.example";
  PUBLIC_STOREFRONT_API_TOKEN := Js.Str "token";
|}.

(** A request in a French Canadian storefront, and one whose storefront
    client has no locale. *)
Definition localized : LoaderFunctionArgs := {|
  request := {| url := "https://shop.example/" |};
  context := {| env := environment;
                i18n := Some {| language := "FR"; country := "CA" |} |};
|}.

Definition unlocalized : LoaderFunctionArgs := {|
  request := {| url := "https://shop.example/" |};
  context := {| env := environment; i18n := None |};
|}.

Definition shopData : Js.value :=
  Js.Obj [("shop", Js.Obj [("name", Js.Str "Shop")])].

(** Every call succeeds. *)
Definition allGood : World := {|
  outcome := λ f,
    match f with
    | LayoutQuery => Fulfilled shopData
    | IsLoggedIn => Fulfilled (Js.Bool false)
    | _ => Fulfilled (Js.Obj [])
    end;
  latency := λ f, match f with LayoutQuery => 2 | _ => 5 end;
  layoutFirstOnTie := true;
|}.

(** The header query fails, everything else succeeds. *)
Definition headerDown : World := {|
  outcome := λ f,
    match f with
    | HeaderQuery => Rejected (Js.ApiError "header menu unavailable")
    | _ => outcome allGood f
    end;
  latency := latency allGood;
  layoutFirstOnTie := layoutFirstOnTie allGood;
|}.


(** The layout query answers [null]. *)
Definition layoutEmpty : World := {|
  outcome := λ f,
    match f with
    | LayoutQuery => Fulfilled Js.Null
    | _ => outcome allGood f
    end;
  latency := latency allGood;
  layoutFirstOnTie := layoutFirstOnTie allGood;
|}.

(** A form post on the cart page. *)
Definition postCart : Revalidate.NavEvent := {|
  Revalidate.formMethod := Some "POST";
  Revalidate.currentUrl := {| Revalidate.href := "/cart" |};
  Revalidate.nextUrl := {| Revalidate.href := "/cart" |};
  Revalidate.defaultShouldRevalidate := false;
|}.

End Sample.

(** ** The document shell: MainLayout, App and ErrorBoundary *)

Module Shell.
Import Stdlib.Strings.Ascii.
Import Root.

(** [`${v}`]: the string a template literal makes of a value (objects
    are plain objects here, numbers are integers). *)
Definition toStr (v : Js.value) : string :=
  match v with
  | Js.Undefined => "undefined"
  | Js.Null => "null"
  | Js.Bool true => "true"
  | Js.Bool false => "false"
  | Js.Num n => pretty n
  | Js.Str s => s
  | Js.Obj _ => "[object Object]"
  end.

(** [data.k] on the loader data: a missing property is [undefined]. *)
Definition dataProp (k : string) (data : gmap string Field) : Field :=
  default (Plain Js.Undefined) (data !! k).

(** [locale.k], where [locale] is what [??] chose: a [TypeError] when
    it is [undefined] or [null]; a promise has no such property. *)
Definition member (k : string) (locale : Field) : Result Js.value :=
  match locale with
  | Plain v =>
      if Js.nullish v
      then Throw (Js.TypeError "Cannot read properties of undefined")
      else Ok (Js.prop k v)
  | Pending _ => Ok Js.Undefined
  end.

(** The props given to the providers and to [Layout] when there is
    loader data. *)
Record Providers : Type := {
  okendoProviderData : Field;   (* OkendoProvider okendoProviderData *)
  analyticsCart : Field;        (* Analytics.Provider cart *)
  analyticsShop : Field;        (* Analytics.Provider shop *)
  analyticsConsent : Field;     (* Analytics.Provider consent *)
  layoutKey : string;           (* Layout key *)
  layoutProp : Field;           (* Layout layout *)
}.

(** The body: the children inside the providers and [Layout], or the
    children alone. *)
Inductive Body (C : Type) : Type :=
| WithLayout (providers : Providers) (children : C)
| Bare (children : C).
Arguments WithLayout {C} providers children.
Arguments Bare {C} children.

(** What [MainLayout] renders that depends on its input: the [lang]
    attribute, the [oke:subscriber_id] meta tag when there is one, and
    the body. *)
Record Document (C : Type) : Type := {
  lang : Js.value;
  okendoSubscriberMeta : option Field;
  body : Body C;
}.
Arguments lang {C} d.
Arguments okendoSubscriberMeta {C} d.
Arguments body {C} d.

(** [MainLayout({children})], given what [useRouteLoaderData('root')]
    returns. *)
Definition MainLayout {C} (imp : Imports) (data : option (gmap string Field))
    (children : C) : Result (Document C) :=
  let locale := layoutLocale imp data in
  match member "language" locale with
  | Throw e => Throw e
  | Ok language =>
      match data with
      | None =>
          Ok {| lang := language; okendoSubscriberMeta := None;
                body := Bare children |}
      | Some d =>
          match member "country" locale with
          | Throw e => Throw e
          | Ok country =>
              Ok {| lang := language;
                    okendoSubscriberMeta :=
                      Some (dataProp "publicOkendoSubcriberId" d);
                    body := WithLayout
                      {| okendoProviderData := dataProp "okendoProviderData" d;
                         analyticsCart := dataProp "cart" d;
                         analyticsShop := dataProp "shop" d;
                         analyticsConsent := dataProp "consent" d;
                         layoutKey := toStr language +:+ "-" +:+ toStr country;
                         layoutProp := dataProp "layout" d |}
                      children |}
          end
      end
  end.

(** What was thrown: an [Error] instance or any other value. *)
Inductive Thrown : Type :=
| ErrorInstance (e : Js.error)
| NotAnError (v : Js.value).

(** What [useRouteError()] returns: a route error response (the case
    [isRouteErrorResponse] recognises) or what was thrown. *)
Inductive RouteError : Type :=
| ErrorResponse (status : Z) (data : Js.value)
| Raised (t : Thrown).

(** The [error] prop of [GenericError]: an object with a message, or the
    error itself. *)
Inductive ErrorInfo : Type :=
| Message (m : string)
| Original (e : Js.error).

(** The children the shell is given. *)
Inductive Page : Type :=
| OutletPage
| NotFound (type : Js.value)
| GenericError (error : option ErrorInfo).

(** The children [ErrorBoundary] renders, from its [error] prop and the
    route error.  (The [title] it also computes is not used.) *)
Definition errorPage (error : Thrown) (routeError : RouteError) : Page :=
  match routeError with
  | ErrorResponse status data =>
      let pageType :=
        if (status =? 404)%Z
        then (if Js.truthy data then data else Js.Str "page")
        else Js.Str "page" in
      if (status =? 404)%Z then NotFound pageType
      else GenericError (Some (Message (pretty status +:+ " " +:+ toStr data)))
  | Raised _ =>
      GenericError
        match error with
        | ErrorInstance e => Some (Original e)
        | NotAnError _ => None
        end
  end.

Definition ErrorBoundary (imp : Imports) (data : option (gmap string Field))
    (error : Thrown) (routeError : RouteError) : Result (Document Page) :=
  MainLayout imp data (errorPage error routeError).

Definition App (imp : Imports) (data : option (gmap string Field))
  : Result (Document Page) :=
  MainLayout imp data OutletPage.

(** The key [Layout] is mounted under, when it is mounted. *)
Definition mountedKey {C} (d : Document C) : option string :=
  match body d with
  | WithLayout providers _ => Some (layoutKey providers)
  | Bare _ => None
  end.

(** No hyphen in a language or country code. *)
Fixpoint hyphenFree (s : string) : bool :=
  match s with
  | EmptyString => true
  | String c rest => negb (Ascii.eqb c "-"%char) && hyphenFree rest
  end.

End Shell.

(** ** Counting on a modal's history *)

Module NcModalHistory.
Import NcModal.

(** The close requests of a history that reach a parent: those made
    while the last render had an [onCloseModal]. *)
Fixpoint closesHeard (listening : bool) (acts : list Action) : nat :=
  match acts with
  | [] => 0
  | Open :: rest => closesHeard listening rest
  | Close :: rest => (if listening then 1 else 0) + closesHeard listening rest
  | Rerender p :: rest => closesHeard (onCloseModal p) rest
  end.

(** The first render of a modal, before its effect has run. *)
Definition firstRender (p : Props) : Instance :=
  {| props := p; isOpen := notNot (isOpenProp p);
     effectDeps := None; closeCalls := 0 |}.

(** What is committed, and so on screen at some moment, during a
    history: the outcome of each call, and for a re-render both the
    render with the new props and the one that follows its effect. *)
Fixpoint commitsFrom (s : Instance) (acts : list Action) : list Instance :=
  match acts with
  | [] => []
  | Rerender p :: rest =>
      render p s :: flushEffect (render p s)
        :: commitsFrom (flushEffect (render p s)) rest
  | a :: rest => step s a :: commitsFrom (step s a) rest
  end.

Definition commits (p : Props) (acts : list Action) : list Instance :=
  firstRender p :: mount p :: commitsFrom (mount p) acts.

(** The modal contract as worded: whatever is on screen shows the
    boolean [isOpenProp] of its render. *)
Definition overrideAlwaysShown (p : Props) (acts : list Action) : Prop :=
  ∀ s b, s ∈ commits p acts →
    isOpenProp (props s) = Some b → visible s = b.

End NcModalHistory.

(** ** More sample worlds *)

Module Sample2.
Import Root.

(** Both critical calls fail, the review provider first. *)
Definition bothDown : World := {|
  outcome := λ f,
    match f with
    | LayoutQuery => Rejected (Js.ApiError "layout unavailable")
    | OkendoProviderData => Rejected (Js.ApiError "reviews unavailable")
    | _ => outcome Sample.allGood f
    end;
  latency := λ f, match f with OkendoProviderData => 1 | _ => 4 end;
  layoutFirstOnTie := true;
|}.

(** The layout query answers the empty string. *)
Definition layoutBlank : World := {|
  outcome := λ f,
    match f with
    | LayoutQuery => Fulfilled (Js.Str "")
    | _ => outcome Sample.allGood f
    end;
  latency := latency Sample.allGood;
  layoutFirstOnTie := layoutFirstOnTie Sample.allGood;
|}.

(** The same storefront in Canadian English. *)
Definition english : LoaderFunctionArgs := {|
  request := {| url := "https://shop.example/" |};
  context := {| env := Sample.environment;
                i18n := Some {| language := "EN"; country := "CA" |} |};
|}.

End Sample2.

(** * Properties *)

(** ** Revalidation *)

Section RevalidateProperties.
Import Revalidate.

(** Running the body never touches the ambient state, and its value does
    not depend on it. *)
Lemma shouldRevalidate_body_run (ev : NavEvent) (g : Ambient) :
  shouldRevalidate_body ev g = (shouldRevalidate ev, g).
Proof.
  unfold shouldRevalidate, shouldRevalidate_body.
  destruct (truthyMethod _ && strictNe _ _); [reflexivity|].
  unfold mbind, mret, JS_bind, JS_ret, js_bind, js_ret.
  destruct (String.eqb _ _); reflexivity.
Qed.

(** The three rules read off the code, without the monad. *)
Lemma shouldRevalidate_unfold (ev : NavEvent) :
  shouldRevalidate ev =
    if truthyMethod (formMethod ev) && strictNe (formMethod ev) "GET" then true
    else if String.eqb (href (currentUrl ev)) (href (nextUrl ev)) then true
    else false.
Proof.
  unfold shouldRevalidate, shouldRevalidate_body.
  destruct (truthyMethod _ && strictNe _ _); [reflexivity|].
  unfold mbind, mret, JS_bind, JS_ret, js_bind, js_ret, toString.
  destruct (String.eqb _ _); reflexivity.
Qed.

(** C3. For every navigation event, [shouldRevalidate] returns the result
    of the three-rule, first-match decision: true when a method is
    present and is not the pure-read method; otherwise true when the two
    URLs are textually identical; otherwise false.  The method of an
    event, when present, is a method name, hence not the empty string. *)
Theorem shouldRevalidate_decision (ev : NavEvent) :
  wellFormed ev → shouldRevalidate ev = decision ev.
Proof.
  intros Hwf. rewrite shouldRevalidate_unfold. unfold decision, sameUrl.
  destruct ev as [[m|] cur nxt flag]; cbn in *; [|reflexivity].
  unfold wellFormed in Hwf; cbn in Hwf. unfold pureRead.
  destruct (String.eqb_spec m "") as [->|_]; [congruence|].
  reflexivity.
Qed.

Lemma shouldRevalidate_decision_witness :
  wellFormed Sample.postCart
  ∧ shouldRevalidate Sample.postCart = decision Sample.postCart
  ∧ decision Sample.postCart = true.
Proof.
  split; [unfold wellFormed; cbn; congruence|].
  split; [|reflexivity].
  apply (shouldRevalidate_decision Sample.postCart).
  unfold wellFormed; cbn; congruence.
Defined.

(** The scenarios of the routing contract. *)
Example revalidate_post_same_url :
  shouldRevalidate {| formMethod := Some "POST";
                      currentUrl := {| href := "/cart" |};
                      nextUrl := {| href := "/cart" |};
                      defaultShouldRevalidate := false |} = true.
Proof. reflexivity. Qed.

Example revalidate_same_url :
  shouldRevalidate {| formMethod := None;
                      currentUrl := {| href := "/products/a" |};
                      nextUrl := {| href := "/products/a" |};
                      defaultShouldRevalidate := false |} = true.
Proof. reflexivity. Qed.

Example reuse_on_other_url :
  shouldRevalidate {| formMethod := None;
                      currentUrl := {| href := "/products/a" |};
                      nextUrl := {| href := "/products/b" |};
                      defaultShouldRevalidate := true |} = false.
Proof. reflexivity. Qed.

(** A mutating method revalidates whatever the URLs and the flag are. *)
Lemma mutation_revalidates (m : string) (cur nxt : URL) (flag : bool) :
  m ≠ "" → m ≠ "GET" →
  shouldRevalidate {| formMethod := Some m; currentUrl := cur;
                      nextUrl := nxt; defaultShouldRevalidate := flag |} = true.
Proof.
  intros Hne Hget. rewrite shouldRevalidate_unfold. cbn.
  destruct (String.eqb_spec m ""); [contradiction|].
  destruct (String.eqb_spec m "GET"); [contradiction|]. reflexivity.
Qed.

(** The empty string is falsy: as a method it counts as no method. *)
Lemma empty_method_is_no_method (cur nxt : URL) (flag : bool) :
  shouldRevalidate {| formMethod := Some ""; currentUrl := cur;
                      nextUrl := nxt; defaultShouldRevalidate := flag |}
  = shouldRevalidate {| formMethod := None; currentUrl := cur;
                        nextUrl := nxt; defaultShouldRevalidate := flag |}.
Proof. rewrite !shouldRevalidate_unfold. reflexivity. Qed.

(** C8. [shouldRevalidate] is pure and deterministic: run in any two
    ambient states on the same event it returns the same boolean, and it
    leaves the ambient state it ran in unchanged. *)
Theorem shouldRevalidate_pure (ev : NavEvent) (g1 g2 : Ambient) :
  (shouldRevalidate_body ev g1).1 = (shouldRevalidate_body ev g2).1
  ∧ (shouldRevalidate_body ev g1).2 = g1
  ∧ (shouldRevalidate_body ev g2).2 = g2.
Proof. rewrite !shouldRevalidate_body_run. auto. Qed.

(** C10. The result does not depend on the refresh flag: two events with
    the same method and URLs get the same answer whatever their flags. *)
Theorem shouldRevalidate_ignores_flag
    (m : option string) (cur nxt : URL) (flag1 flag2 : bool) :
  shouldRevalidate {| formMethod := m; currentUrl := cur;
                      nextUrl := nxt; defaultShouldRevalidate := flag1 |}
  = shouldRevalidate {| formMethod := m; currentUrl := cur;
                        nextUrl := nxt; defaultShouldRevalidate := flag2 |}.
Proof. rewrite !shouldRevalidate_unfold. reflexivity. Qed.

End RevalidateProperties.

(** ** The root loader *)

Section RootProperties.
Import Root.

(** Unfolds a run of the loader down to the calls on the services. *)
Ltac run_loader :=
  cbv beta iota zeta delta
    [loader loader_body loadDeferredData loadCriticalData getLayoutData
     awaitAll observe call lift i18nOf throw log
     mbind mret Run_bind Run_ret run_bind run_ret settle settledAt app id].

(** Splits a run on what decides it: the locale of the context, the two
    critical outcomes, and which critical promise settles first. *)
Ltac loader_cases w args :=
  run_loader;
  destruct (i18n (context args)) as [?l|] eqn:?Hlocale;
  [ destruct (seenFirst w (latency w LayoutQuery)
                (latency w OkendoProviderData)) eqn:?Horder;
    destruct (outcome w LayoutQuery) as [?layout|?e] eqn:?Hlayout;
    cbv beta iota delta [getLayoutData_resume invariant];
    try destruct (Js.truthy _) eqn:?Htruthy;
    destruct (outcome w OkendoProviderData) as [?okendo|?e] eqn:?Hokendo
  | ].

Lemma settleOrder_unfold (w : World) (b : bool) :
  seenFirst w (latency w LayoutQuery) (latency w OkendoProviderData) = b →
  settleOrder w = if b then [CriticalSettled CLayout; CriticalSettled COkendo]
                  else [CriticalSettled COkendo; CriticalSettled CLayout].
Proof. intros H. unfold settleOrder. rewrite H. reflexivity. Qed.

(** [defer] keeps the properties and tracks each of them. *)
Lemma lookup_defer (data : gmap string Field) (key : string) :
  defer data !! key = trackPromise key <$> data !! key.
Proof.
  unfold defer. rewrite map_lookup_imap.
  destruct (data !! key); reflexivity.
Qed.

(** The two components of a returned result. *)
Lemma ok_pair_inv {A : Type} (a a' : A) (t t' : list Event) :
  (Ok a, t) = (Ok a', t') → a = a' ∧ t = t'.
Proof.
  intros H. split.
  - exact (f_equal (λ r, match r.1 with Ok x => x | Throw _ => a end) H).
  - exact (f_equal snd H).
Qed.

(** A run that returns: there was a locale, both critical calls were
    fulfilled, the layout passed the invariant, and the data and the
    trace are the expected ones. *)
Lemma loader_returns (imp : Imports) (w : World) (args : LoaderFunctionArgs)
    (data : gmap string Field) (t : list Event) :
  loader imp w args = (Ok data, t) →
  ∃ locale layout okendo,
    i18n (context args) = Some locale
    ∧ outcome w LayoutQuery = Fulfilled layout
    ∧ Js.truthy layout = true
    ∧ outcome w OkendoProviderData = Fulfilled okendo
    ∧ data = pageData imp args locale layout okendo
    ∧ t = (issuedCalls ++ settleOrder w ++ [Joined; Returned])%list.
Proof.
  loader_cases w args;
    try match goal with |- (Throw _, _) = _ → _ => discriminate end;
    intros Hrun; apply ok_pair_inv in Hrun as [<- <-]; eexists _, _, _;
    rewrite (settleOrder_unfold w _ Horder);
    (do 4 (split; [first [reflexivity | eassumption]|]));
    (split; [|reflexivity]);
    unfold pageData; apply (f_equal defer);
    match goal with |- _ = ?record => vm_cast_no_check (eq_refl record) end.
Qed.

(** Conversely, those conditions make the run return. *)
Lemma loader_succeeds (imp : Imports) (w : World) (args : LoaderFunctionArgs)
    (locale : I18n) (layout okendo : Js.value) :
  i18n (context args) = Some locale →
  outcome w LayoutQuery = Fulfilled layout →
  Js.truthy layout = true →
  outcome w OkendoProviderData = Fulfilled okendo →
  loader imp w args =
    (Ok (pageData imp args locale layout okendo),
     (issuedCalls ++ settleOrder w ++ [Joined; Returned])%list).
Proof.
  intros Hl Hlay Htr Hok. unfold settleOrder. run_loader.
  rewrite Hl, Hlay, Hok.
  cbv beta iota delta [getLayoutData_resume invariant]. rewrite Htr.
  destruct (seenFirst _ _ _);
    (apply (f_equal2 pair); [|reflexivity]);
    unfold pageData; apply (f_equal Ok), (f_equal defer);
    match goal with |- _ = ?record => vm_cast_no_check (eq_refl record) end.
Qed.

(** Every run ends: it returns data or it throws. *)
Lemma loader_total (imp : Imports) (w : World) (args : LoaderFunctionArgs) :
  (∃ data t, loader imp w args = (Ok data, t))
  ∨ (∃ e t, loader imp w args = (Throw e, t)).
Proof. destruct (loader imp w args) as [[data|e] t]; eauto. Qed.

(** A rejected critical call, or a falsy layout, makes the run throw:
    there is no loader data. *)
Lemma loader_throws (imp : Imports) (w : World) (args : LoaderFunctionArgs) :
  (∃ e, outcome w LayoutQuery = Rejected e)
  ∨ (∃ e, outcome w OkendoProviderData = Rejected e)
  ∨ (∃ v, outcome w LayoutQuery = Fulfilled v ∧ Js.truthy v = false) →
  (∃ e t, loader imp w args = (Throw e, t))
  ∧ loaderData (loader imp w args) = None.
Proof.
  intros Hbad.
  assert (∃ e t, loader imp w args = (Throw e, t)) as (e & t & Hthrow).
  { destruct (loader_total imp w args) as [(data & t & Hrun)|Hthrow];
      [|exact Hthrow].
    destruct (loader_returns _ _ _ _ _ Hrun)
      as (locale & layout & okendo & _ & Hlay & Htr & Hok & _).
    destruct Hbad as [[e He]|[[e He]|(v & Hv & Hfalsy)]]; congruence. }
  split; [eauto|]. unfold loaderData. rewrite Hthrow. reflexivity.
Qed.

(** The sample runs that the examples below start from. *)
Lemma sample_run (w : World) (okendo : Js.value) :
  outcome w LayoutQuery = Fulfilled Sample.shopData →
  outcome w OkendoProviderData = Fulfilled okendo →
  loader Sample.imports w Sample.localized =
    (Ok (pageData Sample.imports Sample.localized
           {| language := "FR"; country := "CA" |} Sample.shopData okendo),
     (issuedCalls ++ settleOrder w ++ [Joined; Returned])%list).
Proof. intros Hlay Hok. by apply loader_succeeds. Qed.

(** *** Deferred data *)

(** The run does not look at the deferred calls: two worlds that agree
    on the critical ones give the same result and the same trace. *)
Lemma loader_ignores_deferred (imp : Imports) (w w' : World)
    (args : LoaderFunctionArgs) :
  sameCritical w w' → loader imp w' args = loader imp w args.
Proof.
  intros [Htie Hsame].
  destruct (Hsame LayoutQuery eq_refl) as [Ho1 Hl1].
  destruct (Hsame OkendoProviderData eq_refl) as [Ho2 Hl2].
  run_loader. destruct (i18n (context args)); [|reflexivity].
  unfold seenFirst. rewrite Ho1, Hl1, Ho2, Hl2, Htie. reflexivity.
Qed.

(** C1 (as worded: each deferred handle resolves to an empty value when
    its call is rejected) does not hold: with the header query rejected,
    the loader returns and its [headerPromise] is rejected. *)
Lemma deferred_failure_not_absorbed :
  ¬ deferredFailuresAbsorbed Sample.imports Sample.headerDown Sample.localized.
Proof.
  intros Habs.
  destruct (Habs _ _ (sample_run Sample.headerDown _ eq_refl eq_refl)
              HeaderQuery "headerPromise" eq_refl) as (p & v & Hp & Hv).
  unfold pageData in Hp. rewrite lookup_defer in Hp.
  vm_compute in Hp. injection Hp as <-. vm_compute in Hv. discriminate Hv.
Qed.

(** C1 (amended). A rejection of a deferred call is not converted: in
    a run that returns, the handle that the data holds for the call is
    rejected with the call's error.  That does not fail the request or
    touch anything else: how a handle settles depends on its own call
    only, and the loader, which never awaits the deferred calls, returns
    the same data with the same trace in any world that differs only in
    what the deferred calls do. *)
Theorem deferred_rejection_reaches_handle (imp : Imports) (w : World)
    (args : LoaderFunctionArgs) (data : gmap string Field) (t : list Event) :
  loader imp w args = (Ok data, t) →
  (∀ f key, deferredKey f = Some key →
     ∃ p, data !! key = Some (Pending p)
       ∧ (∀ e, outcome w f = Rejected e → settle w p = Rejected e)
       ∧ (∀ w', outcome w' f = outcome w f → settle w' p = settle w p))
  ∧ (∀ w', sameCritical w w' → loader imp w' args = (Ok data, t)).
Proof.
  intros Hrun. split.
  - destruct (loader_returns _ _ _ _ _ Hrun)
      as (locale & layout & okendo & _ & _ & _ & _ & -> & _).
    intros f key Hkey. exists (OnCall f (onSettle key)).
    split; [|split].
    + unfold pageData. rewrite lookup_defer.
      destruct f; cbn in Hkey; try discriminate Hkey;
        injection Hkey as <-; vm_compute; reflexivity.
    + intros e He. cbn. rewrite He. reflexivity.
    + intros w' Hw'. cbn. rewrite Hw'. reflexivity.
  - intros w' Hsame. rewrite <- Hrun. by apply loader_ignores_deferred.
Qed.

Lemma deferred_rejection_reaches_handle_witness :
  ∃ data t p,
    loader Sample.imports Sample.headerDown Sample.localized = (Ok data, t)
    ∧ data !! "headerPromise" = Some (Pending p)
    ∧ settle Sample.headerDown p
      = Rejected (Js.ApiError "header menu unavailable")
    ∧ loader Sample.imports Sample.allGood Sample.localized = (Ok data, t).
Proof.
  pose proof (sample_run Sample.headerDown _ eq_refl eq_refl) as Hrun.
  destruct (deferred_rejection_reaches_handle _ _ _ _ _ Hrun)
    as [Hkeys Hsame].
  destruct (Hkeys HeaderQuery "headerPromise" eq_refl) as (p & Hp & Hrej & _).
  eexists _, _, p.
  split; [exact Hrun|]. split; [exact Hp|].
  split; [apply Hrej; reflexivity|].
  apply Hsame. split; [reflexivity|].
  intros [] Hcrit; try discriminate Hcrit; split; reflexivity.
Defined.

(** *** Critical data *)




(** *** Order of the calls *)

(** C4 (as worded: no deferred call is issued before the critical
    promises have all settled) does not hold: in a run where every call
    succeeds, the header query is issued while no critical promise has
    settled yet. *)
Lemma deferred_issued_before_join :
  ¬ joinBeforeDeferred (loader Sample.imports Sample.allGood Sample.localized).2.
Proof.
  intros Hjoin.
  rewrite (sample_run Sample.allGood _ eq_refl eq_refl) in Hjoin.
  specialize (Hjoin HeaderQuery CLayout eq_refl).
  vm_compute in Hjoin. discriminate Hjoin.
  apply list_elem_of_In. cbn. auto.
Qed.

(** C4 (amended). In every run the deferred calls come first: each one
    that is issued is issued before any critical call is, and none is
    issued after a critical promise has settled.  When the run returns,
    all four deferred calls were issued before the join, and the join
    precedes the return. *)
Theorem deferred_calls_issued_first (imp : Imports) (w : World)
    (args : LoaderFunctionArgs) :
  (∀ d c, deferredFetch d = true → criticalFetch c = true →
     Issued d ∈ (loader imp w args).2 → Issued c ∈ (loader imp w args).2 →
     before (Issued d) (Issued c) (loader imp w args).2 = true)
  ∧ (∀ d c, deferredFetch d = true →
       before (CriticalSettled c) (Issued d) (loader imp w args).2 = false)
  ∧ (Returned ∈ (loader imp w args).2 →
       (∀ d, deferredFetch d = true →
          before (Issued d) Joined (loader imp w args).2 = true)
       ∧ before Joined Returned (loader imp w args).2 = true).
Proof.
  split; [|split].
  - intros d c Hd Hc.
    loader_cases w args; cbn [snd];
      destruct d; try discriminate Hd; destruct c; try discriminate Hc;
      intros Hind Hinc; try reflexivity;
      apply list_elem_of_In in Hinc; cbn in Hinc; intuition discriminate.
  - intros d c Hd.
    loader_cases w args; cbn [snd];
      destruct d; try discriminate Hd; destruct c; reflexivity.
  - loader_cases w args; cbn [snd]; intros Hret;
      try (apply list_elem_of_In in Hret; cbn in Hret; intuition discriminate);
      (split; [intros d Hd; destruct d; try discriminate Hd|]; reflexivity).
Qed.

Lemma deferred_calls_issued_first_witness :
  before (Issued CartGet) (Issued LayoutQuery)
    (loader Sample.imports Sample.allGood Sample.localized).2 = true
  ∧ before (Issued CartGet) Joined
      (loader Sample.imports Sample.allGood Sample.localized).2 = true.
Proof.
  destruct (deferred_calls_issued_first Sample.imports Sample.allGood
              Sample.localized) as (Hfirst & _ & Hret).
  split.
  - apply Hfirst; try reflexivity; apply list_elem_of_In; vm_compute; auto 20.
  - destruct Hret as [Hdeferred _];
      [apply list_elem_of_In; vm_compute; auto 20|].
    apply Hdeferred. reflexivity.
Defined.

(** *** Locale *)




(** *** The layout invariant *)

(** C6. When the layout query yields [null] or [undefined],
    [getLayoutData] fails its invariant instead of returning: the promise
    it gives is rejected and never fulfilled.  The loader then throws, as
    it does for any failed critical call, and there is no loader data,
    hence none with an absent layout. *)
Theorem missing_layout_is_fatal (imp : Imports) (w : World)
    (args : LoaderFunctionArgs) (v : Js.value) :
  outcome w LayoutQuery = Fulfilled v → Js.nullish v = true →
  (∀ ctx locale t0, i18n ctx = Some locale →
     getLayoutData ctx t0
     = (Ok (OnCall LayoutQuery getLayoutData_resume),
        (t0 ++ [Issued LayoutQuery])%list)
     ∧ settle w (OnCall LayoutQuery getLayoutData_resume)
       = Rejected (Js.InvariantError "No data returned from Shopify API"))
  ∧ (∃ e t, loader imp w args = (Throw e, t))
  ∧ loaderData (loader imp w args) = None.
Proof.
  intros Hlay Hnull.
  assert (Hfalsy : Js.truthy v = false) by (destruct v; done).
  split; [|apply loader_throws; eauto].
  intros ctx locale t0 Hl. split.
  - unfold getLayoutData, i18nOf. rewrite Hl. reflexivity.
  - cbn. rewrite Hlay. unfold getLayoutData_resume, invariant.
    rewrite Hfalsy. reflexivity.
Qed.

Lemma missing_layout_is_fatal_witness :
  ∃ e t, loader Sample.imports Sample.layoutEmpty Sample.localized = (Throw e, t).
Proof.
  apply (missing_layout_is_fatal Sample.imports Sample.layoutEmpty
           Sample.localized Js.Null); reflexivity.
Defined.

(** *** The outbound record *)

(** C7. The data of every run that returns has the properties [layout],
    [seo], [shop], [consent], [selectedLocale], the review provider's
    bootstrap data ([okendoProviderData]), the pending [isLoggedIn],
    [cart], [headerPromise] and [footerPromise], and the environment
    values passed through, among them [publicStoreDomain]. *)
Theorem loader_data_fields (imp : Imports) (w : World)
    (args : LoaderFunctionArgs) (data : gmap string Field) (t : list Event) :
  loader imp w args = (Ok data, t) →
  ∃ locale layout okendo,
    i18n (context args) = Some locale
    ∧ outcome w LayoutQuery = Fulfilled layout
    ∧ outcome w OkendoProviderData = Fulfilled okendo
    ∧ data !! "layout" = Some (Plain layout)
    ∧ data !! "seo"
      = Some (Plain (seoPayload_root imp (Js.prop "shop" layout)
                       (url (request args))))
    ∧ data !! "shop"
      = Some (trackPromise "shop"
                (getShopAnalytics imp (PUBLIC_STOREFRONT_ID (env (context args)))))
    ∧ data !! "consent"
      = Some (Plain (Js.Obj [
          ("checkoutDomain", PUBLIC_CHECKOUT_DOMAIN (env (context args)));
          ("storefrontAccessToken",
             PUBLIC_STOREFRONT_API_TOKEN (env (context args)));
          ("withPrivacyBanner", Js.Bool true)]))
    ∧ data !! "selectedLocale" = Some (Plain (i18nValue locale))
    ∧ data !! "okendoProviderData" = Some (Plain okendo)
    ∧ data !! "isLoggedIn"
      = Some (Pending (OnCall IsLoggedIn (onSettle "isLoggedIn")))
    ∧ data !! "cart" = Some (Pending (OnCall CartGet (onSettle "cart")))
    ∧ data !! "headerPromise"
      = Some (Pending (OnCall HeaderQuery (onSettle "headerPromise")))
    ∧ data !! "footerPromise"
      = Some (Pending (OnCall FooterQuery (onSettle "footerPromise")))
    ∧ data !! "env" = Some (Plain (envValue (env (context args))))
    ∧ data !! "publicStoreDomain"
      = Some (Plain (PUBLIC_STORE_DOMAIN (env (context args))))
    ∧ data !! "publicStoreSubdomain"
      = Some (Plain (PUBLIC_SHOPIFY_STORE_DOMAIN (env (context args))))
    ∧ data !! "publicStoreCdnStaticUrl"
      = Some (Plain (PUBLIC_STORE_CDN_STATIC_URL (env (context args))))
    ∧ data !! "publicImageFormatForProductOption"
      = Some (Plain (PUBLIC_IMAGE_FORMAT_FOR_PRODUCT_OPTION (env (context args))))
    ∧ data !! "publicOkendoSubcriberId"
      = Some (Plain (PUBLIC_OKENDO_SUBSCRIBER_ID (env (context args))))
    ∧ dom data = list_to_set [
        "layout"; "seo"; "shop"; "consent"; "selectedLocale";
        "okendoProviderData"; "isLoggedIn"; "isLoggedInPromise"; "cart";
        "headerPromise"; "footerPromise"; "env"; "publicStoreDomain";
        "publicStoreSubdomain"; "publicStoreCdnStaticUrl";
        "publicImageFormatForProductOption"; "publicOkendoSubcriberId"].
Proof.
  intros Hrun.
  destruct (loader_returns _ _ _ _ _ Hrun)
    as (locale & layout & okendo & Hl & Hlay & _ & Hok & -> & _).
  exists locale, layout, okendo.
  do 3 (split; [assumption|]).
  repeat split; vm_compute; reflexivity.
Qed.

Lemma loader_data_fields_witness :
  ∃ data t,
    loader Sample.imports Sample.allGood Sample.localized = (Ok data, t)
    ∧ data !! "publicStoreDomain" = Some (Plain (Js.Str "shop.example"))
    ∧ data !! "layout" = Some (Plain Sample.shopData).
Proof.
  eexists _, _. 
  pose proof (sample_run Sample.allGood _ eq_refl eq_refl) as Hrun.
  split; [exact Hrun|].
  destruct (loader_data_fields _ _ _ _ _ Hrun)
    as (locale & layout & okendo & _ & Hlay & _ & Hlayout & Hrest).
  injection Hlay as <-.
  split; [|exact Hlayout].
  exact (proj1 (proj2 (proj2 (proj2 (proj2 (proj2 (proj2 (proj2
           (proj2 (proj2 (proj2 Hrest))))))))))).
Defined.

End RootProperties.

(** ** The modal *)

Section ModalProperties.
Import NcModal.

Lemma mount_settled (p : Props) : settled (mount p).
Proof.
  unfold settled, mount, flushEffect. cbn.
  case_bool_decide; [discriminate|]. cbn.
  split; [reflexivity|]. intros b ->. reflexivity.
Qed.

Lemma step_settled (s : Instance) (a : Action) :
  settled s → settled (step s a).
Proof.
  intros [Hdeps Hopen]. destruct s as [[prop notify] open deps calls].
  cbn in Hdeps, Hopen. subst deps.
  destruct a as [| |[prop' notify']]; unfold settled; cbn.
  - unfold openModal; cbn. destruct prop; cbn; split; auto; discriminate.
  - unfold closeModal; cbn.
    destruct prop, notify; cbn; split; auto; discriminate.
  - unfold flushEffect; cbn. case_bool_decide as Hsame; cbn.
    + injection Hsame as <-. auto.
    + split; [reflexivity|]. intros b ->. reflexivity.
Qed.

Lemma run_settled (p : Props) (acts : list Action) : settled (run p acts).
Proof.
  unfold run. generalize (mount_settled p). generalize (mount p).
  induction acts as [|a acts IH]; intros s Hs; cbn; [exact Hs|].
  apply IH, step_settled, Hs.
Qed.

(** Left alone by the parent, a modal shows what its last toggle asked. *)
Lemma uncontrolled_run (s : Instance) (more : list Action) :
  settled s → isOpenProp (props s) = None →
  forallb uncontrolled more = true →
  visible (foldl step s more) = lastToggle (visible s) more.
Proof.
  revert s. induction more as [|a more IH]; intros s Hs Hnone Hall;
    [reflexivity|].
  cbn in Hall. apply andb_prop in Hall as [Ha Hmore]. cbn [foldl].
  pose proof (step_settled s a Hs) as Hs'.
  destruct s as [[prop notify] open deps calls]. cbn in Hnone. subst prop.
  destruct Hs as [Hdeps _]. cbn in Hdeps. subst deps.
  destruct a as [| |[[b|] notify']]; cbn in Ha; try discriminate Ha.
  - rewrite IH; [reflexivity | exact Hs' | reflexivity | exact Hmore].
  - rewrite IH; [| exact Hs' | by destruct notify | exact Hmore].
    by destruct notify.
  - rewrite IH; [reflexivity | exact Hs' | reflexivity | exact Hmore].
Qed.

(** C9 (as worded: what the modal shows always equals a boolean
    [isOpenProp]) does not hold: the render that receives a new
    [isOpenProp] is committed with the state of the render before, and
    only the effect that follows brings the new value in. *)
Lemma stale_commit_on_new_override :
  ¬ NcModalHistory.overrideAlwaysShown (controlledProps false)
      [Rerender (controlledProps true)].
Proof.
  intros Halways.
  assert (Hstale : visible (render (controlledProps true)
                              (mount (controlledProps false))) = true).
  { apply Halways; [|reflexivity].
    apply list_elem_of_In. cbn. auto. }
  discriminate Hstale.
Qed.

(** C9 (amended). After every action of a modal's life, a re-render
    being complete once its effect has run: when [isOpenProp] is a boolean,
    the modal shows exactly that value and neither [openModal] nor
    [closeModal] changes what it shows; when [isOpenProp] is not given,
    [openModal] shows it, [closeModal] hides it, and as long as the
    parent keeps [isOpenProp] undefined the modal shows what the last of
    these calls asked for. *)
Theorem modal_visibility (p : Props) (acts : list Action) :
  (∀ b, isOpenProp (props (run p acts)) = Some b →
     visible (run p acts) = b
     ∧ visible (openModal (run p acts)) = b
     ∧ visible (closeModal (run p acts)) = b)
  ∧ (isOpenProp (props (run p acts)) = None →
     visible (openModal (run p acts)) = true
     ∧ visible (closeModal (run p acts)) = false
     ∧ ∀ more, forallb uncontrolled more = true →
         visible (foldl step (run p acts) more)
         = lastToggle (visible (run p acts)) more).
Proof.
  pose proof (run_settled p acts) as Hs.
  split.
  - intros b Hb. destruct Hs as [_ Hopen]. specialize (Hopen b Hb).
    unfold visible, openModal, closeModal. rewrite Hb. cbn.
    destruct (onCloseModal _); auto.
  - intros Hnone. unfold visible at 1 2, openModal, closeModal.
    rewrite Hnone. cbn.
    split; [reflexivity|]. split; [by destruct (onCloseModal _)|].
    intros more Hmore. by apply uncontrolled_run.
Qed.

Lemma modal_visibility_witness :
  visible (run (controlledProps false) [Open; Close; Rerender (controlledProps true)])
  = true
  ∧ visible (closeModal
      (run (controlledProps false) [Open; Close; Rerender (controlledProps true)]))
    = true
  ∧ visible (foldl step (run (controlledProps true) [Rerender freeProps])
               [Open; Rerender freeProps; Close; Open])
    = true.
Proof.
  destruct (modal_visibility (controlledProps false)
              [Open; Close; Rerender (controlledProps true)]) as [Hcontrolled _].
  destruct (Hcontrolled true eq_refl) as (Hshown & _ & Hclose).
  split; [exact Hshown|]. split; [exact Hclose|].
  destruct (modal_visibility (controlledProps true) [Rerender freeProps])
    as [_ Hfree].
  destruct (Hfree eq_refl) as (_ & _ & Hlast).
  apply (Hlast [Open; Rerender freeProps; Close; Open]). reflexivity.
Defined.

(** A controlled modal that is closed from inside only tells its parent. *)
Example controlled_close_notifies :
  closeCalls (run (controlledProps true) [Close; Close]) = 2
  ∧ visible (run (controlledProps true) [Close; Close]) = true.
Proof. split; reflexivity. Qed.

(** The effect is what brings a new [isOpenProp] into the state: the
    render that receives it still has the state of the render before. *)
Example effect_applies_new_prop :
  visible (render (controlledProps false) (mount (controlledProps true))) = true
  ∧ visible (flushEffect
      (render (controlledProps false) (mount (controlledProps true)))) = false.
Proof. split; reflexivity. Qed.

(** Handing a modal back ([isOpenProp] from a boolean to undefined)
    closes it. *)
Example release_closes :
  visible (run (controlledProps true) [Rerender freeProps]) = false.
Proof. reflexivity. Qed.

End ModalProperties.

(** * Further properties *)

(** ** Revalidation *)

Section RevalidateReuse.
Import Revalidate.

(** X1. Loaded data is reused ([shouldRevalidate] answers false) exactly
    when the two URLs differ as text and the method is absent, empty or
    the exact string [GET]; in every other case the root loader runs
    again. *)
Theorem shouldRevalidate_false_iff (ev : NavEvent) :
  shouldRevalidate ev = false
  ↔ (formMethod ev = None ∨ formMethod ev = Some "" ∨ formMethod ev = Some "GET")
    ∧ href (currentUrl ev) ≠ href (nextUrl ev).
Proof.
  rewrite shouldRevalidate_unfold.
  destruct ev as [m [cur] [nxt] flag]; cbn.
  destruct (String.eqb_spec cur nxt) as [Hsame|Hdiff].
  - split.
    + destruct (truthyMethod m && strictNe m "GET"); discriminate.
    + intros [_ Hne]. contradiction.
  - assert (Hreuse : ∀ P : Prop, P → false = false ↔ P ∧ cur ≠ nxt)
      by (intros P HP; split; [intros _; split; assumption | reflexivity]).
    destruct m as [m|]; cbn; [|apply Hreuse; auto].
    destruct (String.eqb_spec m "") as [->|Hne]; cbn; [apply Hreuse; auto|].
    destruct (String.eqb_spec m "GET") as [->|Hget]; cbn; [apply Hreuse; auto|].
    split; [discriminate|].
    intros [[?|[?|?]] _]; congruence.
Qed.

End RevalidateReuse.

(** ** The root loader *)

Section LoaderOutcomes.
Import Root.

Ltac unfold_loader :=
  cbv beta iota zeta delta
    [loader loader_body loadDeferredData loadCriticalData getLayoutData
     awaitAll observe call lift i18nOf throw log
     mbind mret Run_bind Run_ret run_bind run_ret settle settledAt app id].

(** X2. The loader returns exactly when the context has a locale, the
    layout query is fulfilled with a truthy value and the review
    provider's call is fulfilled; nothing else (the deferred calls, the
    environment values, the request URL) bears on success. *)
Theorem loader_returns_iff (imp : Imports) (w : World)
    (args : LoaderFunctionArgs) :
  (∃ data t, loader imp w args = (Ok data, t))
  ↔ (∃ locale layout okendo,
       i18n (context args) = Some locale
       ∧ outcome w LayoutQuery = Fulfilled layout ∧ Js.truthy layout = true
       ∧ outcome w OkendoProviderData = Fulfilled okendo).
Proof.
  split.
  - intros (data & t & Hrun).
    destruct (loader_returns _ _ _ _ _ Hrun)
      as (locale & layout & okendo & Hl & Hlay & Htr & Hok & _).
    eauto 10.
  - intros (locale & layout & okendo & Hl & Hlay & Htr & Hok).
    eexists _, _. by eapply loader_succeeds.
Qed.

(** X3. When the context has no locale, the loader throws a [TypeError]
    while it destructures [storefront.i18n]: by then it has called
    [customerAccount.isLoggedIn()] and nothing else, so no storefront
    query and no cart call is made for the request. *)
Theorem loader_without_locale (imp : Imports) (w : World)
    (args : LoaderFunctionArgs) :
  i18n (context args) = None →
  (∃ msg, loader imp w args = (Throw (Js.TypeError msg), [Issued IsLoggedIn]))
  ∧ ∀ f, f ≠ IsLoggedIn → Issued f ∉ (loader imp w args).2.
Proof.
  intros Hnone.
  assert (∃ msg, loader imp w args
                 = (Throw (Js.TypeError msg), [Issued IsLoggedIn]))
    as [msg Hrun] by (unfold_loader; rewrite Hnone; eauto).
  split; [eauto|]. intros f Hf. rewrite Hrun. cbn.
  intros Hin. apply list_elem_of_In in Hin. cbn in Hin.
  destruct Hin as [[= <-]|[]]. contradiction.
Qed.

Lemma loader_without_locale_witness :
  ∃ msg, loader Sample.imports Sample.allGood Sample.unlocalized
         = (Throw (Js.TypeError msg), [Issued IsLoggedIn]).
Proof.
  apply (loader_without_locale Sample.imports Sample.allGood Sample.unlocalized).
  reflexivity.
Defined.

(** The promise of [getLayoutData] in a context with a locale. *)
Lemma layout_promise_cases (w : World) :
  (∃ v, outcome w LayoutQuery = Fulfilled v ∧ Js.truthy v = true
        ∧ settle w (OnCall LayoutQuery getLayoutData_resume) = Fulfilled v)
  ∨ (∃ e, settle w (OnCall LayoutQuery getLayoutData_resume) = Rejected e).
Proof.
  cbn. unfold getLayoutData_resume, invariant.
  destruct (outcome w LayoutQuery) as [v|e]; [|eauto].
  destruct (Js.truthy v) eqn:Htr; eauto.
Qed.

(** A run with a locale, in terms of the two critical promises. *)
Lemma loader_with_locale (imp : Imports) (w : World)
    (args : LoaderFunctionArgs) (locale : I18n) :
  i18n (context args) = Some locale →
  match settle w (OnCall LayoutQuery getLayoutData_resume),
        outcome w OkendoProviderData with
  | Rejected e1, Rejected e2 =>
      loader imp w args =
        if seenFirst w (latency w LayoutQuery) (latency w OkendoProviderData)
        then (Throw e1, (issuedCalls ++ [CriticalSettled CLayout])%list)
        else (Throw e2, (issuedCalls ++ [CriticalSettled COkendo])%list)
  | Rejected e, Fulfilled _ =>
      loader imp w args =
        (Throw e,
         (issuedCalls ++
          if seenFirst w (latency w LayoutQuery) (latency w OkendoProviderData)
          then [CriticalSettled CLayout]
          else [CriticalSettled COkendo; CriticalSettled CLayout])%list)
  | Fulfilled _, Rejected e =>
      loader imp w args =
        (Throw e,
         (issuedCalls ++
          if seenFirst w (latency w LayoutQuery) (latency w OkendoProviderData)
          then [CriticalSettled CLayout; CriticalSettled COkendo]
          else [CriticalSettled COkendo])%list)
  | Fulfilled _, Fulfilled _ => ∃ data, (loader imp w args).1 = Ok data
  end.
Proof.
  intros Hl. unfold_loader. rewrite Hl.
  destruct (outcome w LayoutQuery) as [v|e];
    cbv beta iota delta [getLayoutData_resume invariant];
    [destruct (Js.truthy v)|];
    destruct (outcome w OkendoProviderData);
    destruct (seenFirst _ _ _); cbn [fst]; first [reflexivity | eexists; reflexivity].
Qed.

(** X4. [Promise.all] fails fast: when both critical promises are
    rejected, the loader throws the error of the one rejected first and
    stops without having seen the other settle.  The promise whose call
    ends in the earlier tick is the first; when both end in the same
    tick either error may be the one thrown, as the scheduler has it. *)
Theorem first_rejection_wins (imp : Imports) (w : World)
    (args : LoaderFunctionArgs) (locale : I18n) (e1 e2 : Js.error) :
  i18n (context args) = Some locale →
  settle w (OnCall LayoutQuery getLayoutData_resume) = Rejected e1 →
  outcome w OkendoProviderData = Rejected e2 →
  (latency w LayoutQuery < latency w OkendoProviderData →
     loader imp w args
     = (Throw e1, (issuedCalls ++ [CriticalSettled CLayout])%list))
  ∧ (latency w OkendoProviderData < latency w LayoutQuery →
       loader imp w args
       = (Throw e2, (issuedCalls ++ [CriticalSettled COkendo])%list))
  ∧ (loader imp w args
     = (Throw e1, (issuedCalls ++ [CriticalSettled CLayout])%list)
     ∨ loader imp w args
       = (Throw e2, (issuedCalls ++ [CriticalSettled COkendo])%list)).
Proof.
  intros Hl Hlay Hok. pose proof (loader_with_locale imp w args locale Hl) as H.
  rewrite Hlay, Hok in H. rewrite H. unfold seenFirst.
  destruct (Nat.ltb_spec (latency w LayoutQuery) (latency w OkendoProviderData));
    destruct (Nat.eqb_spec (latency w LayoutQuery)
                (latency w OkendoProviderData));
    destruct (layoutFirstOnTie w); cbn;
    (split; [intros ?; first [reflexivity | lia]
            |split; [intros ?; first [reflexivity | lia] | auto]]).
Qed.

Lemma first_rejection_wins_witness :
  loader Sample.imports Sample2.bothDown Sample.localized
  = (Throw (Js.ApiError "reviews unavailable"),
     (issuedCalls ++ [CriticalSettled COkendo])%list).
Proof.
  apply (first_rejection_wins Sample.imports Sample2.bothDown Sample.localized
           {| language := "FR"; country := "CA" |}
           (Js.ApiError "layout unavailable")
           (Js.ApiError "reviews unavailable")); try reflexivity.
  cbn. lia.
Defined.

(** X5. When exactly one critical promise is rejected, the loader throws
    that very error, whenever the other one settles, and neither joins
    nor returns. *)
Theorem lone_rejection_surfaces (imp : Imports) (w : World)
    (args : LoaderFunctionArgs) (locale : I18n) (e : Js.error) :
  i18n (context args) = Some locale →
  (settle w (OnCall LayoutQuery getLayoutData_resume) = Rejected e
   ∧ (∃ v, outcome w OkendoProviderData = Fulfilled v))
  ∨ ((∃ v, settle w (OnCall LayoutQuery getLayoutData_resume) = Fulfilled v)
     ∧ outcome w OkendoProviderData = Rejected e) →
  (loader imp w args).1 = Throw e
  ∧ (Joined ∉ (loader imp w args).2)
  ∧ (Returned ∉ (loader imp w args).2).
Proof.
  intros Hl Hone. pose proof (loader_with_locale imp w args locale Hl) as H.
  destruct Hone as [[Hlay [v Hok]]|[[v Hlay] Hok]];
    rewrite Hlay, Hok in H; rewrite H; cbn;
    (split; [reflexivity|]);
    destruct (seenFirst _ _ _);
    split; intros Hin; apply list_elem_of_In in Hin; cbn in Hin;
    intuition discriminate.
Qed.

Lemma lone_rejection_surfaces_witness :
  (loader Sample.imports Sample.layoutEmpty Sample.localized).1
  = Throw (Js.InvariantError "No data returned from Shopify API").
Proof.
  apply (lone_rejection_surfaces Sample.imports Sample.layoutEmpty
           Sample.localized {| language := "FR"; country := "CA" |});
    [reflexivity|].
  left. split; [reflexivity|]. eexists. reflexivity.
Defined.

End LoaderOutcomes.

Section LoaderCalls.
Import Root.

Ltac unfold_loader :=
  cbv beta iota zeta delta
    [loader loader_body loadDeferredData loadCriticalData getLayoutData
     awaitAll observe call lift i18nOf throw log
     mbind mret Run_bind Run_ret run_bind run_ret settle settledAt app id].

(** X6. No call is made twice for one request: the events of a run are
    pairwise distinct, so each service call is issued at most once, and
    with a locale in the context each of the six calls is issued exactly
    once.  The properties [isLoggedIn] and [isLoggedInPromise] of the
    returned data are two tracking promises of the one
    [customerAccount.isLoggedIn()] call. *)
Theorem every_call_issued_once (imp : Imports) (w : World)
    (args : LoaderFunctionArgs) :
  NoDup (loader imp w args).2
  ∧ (∀ locale f, i18n (context args) = Some locale →
       Issued f ∈ (loader imp w args).2)
  ∧ (∀ data t, loader imp w args = (Ok data, t) →
       data !! "isLoggedIn"
       = Some (Pending (OnCall IsLoggedIn (onSettle "isLoggedIn")))
       ∧ data !! "isLoggedInPromise"
         = Some (Pending (OnCall IsLoggedIn (onSettle "isLoggedInPromise")))).
Proof.
  split; [|split].
  - unfold_loader.
    destruct (i18n (context args)); [|apply (bool_decide_unpack _); exact I].
    destruct (outcome w LayoutQuery) as [v|e];
      cbv beta iota delta [getLayoutData_resume invariant];
      [destruct (Js.truthy v)|];
      destruct (outcome w OkendoProviderData);
      destruct (seenFirst _ _ _); cbn [snd];
      apply (bool_decide_unpack _); vm_compute; exact I.
  - intros locale f Hl. unfold_loader. rewrite Hl.
    destruct (outcome w LayoutQuery) as [v|e];
      cbv beta iota delta [getLayoutData_resume invariant];
      [destruct (Js.truthy v)|];
      destruct (outcome w OkendoProviderData);
      destruct (seenFirst _ _ _); cbn [snd];
      apply list_elem_of_In; destruct f; cbn; auto 20.
  - intros data t Hrun.
    destruct (loader_returns _ _ _ _ _ Hrun)
      as (locale & layout & okendo & _ & _ & _ & _ & -> & _).
    unfold pageData. rewrite !lookup_defer.
    split; vm_compute; reflexivity.
Qed.

(** X7. [getLayoutData] never throws at its caller: it always hands
    back a promise.  That promise is fulfilled with [v] exactly when the
    context has a locale and the layout query is fulfilled with [v] and
    [v] is truthy, so a falsy answer ([null], [undefined], [false], [0],
    the empty string) is never passed on; a rejection of the query is
    passed on with its error unchanged; and without a locale the query is
    not even issued. *)
Theorem getLayoutData_promise (w : World) (ctx : AppLoadContext)
    (t0 : list Event) :
  ∃ p t1, getLayoutData ctx t0 = (Ok p, t1)
    ∧ (∀ v, settle w p = Fulfilled v
            ↔ i18n ctx ≠ None ∧ outcome w LayoutQuery = Fulfilled v
              ∧ Js.truthy v = true)
    ∧ (∀ e, i18n ctx ≠ None → outcome w LayoutQuery = Rejected e →
            settle w p = Rejected e)
    ∧ (i18n ctx = None → t1 = t0 ∧ ∃ msg, settle w p = Rejected (Js.TypeError msg))
    ∧ (i18n ctx ≠ None → t1 = (t0 ++ [Issued LayoutQuery])%list).
Proof.
  unfold getLayoutData, i18nOf.
  destruct (i18n ctx) as [locale|]; eexists _, _; (split; [reflexivity|]).
  - cbn. unfold getLayoutData_resume, invariant.
    split; [|split; [|split]]; try done.
    + intros v. destruct (outcome w LayoutQuery) as [v'|e].
      * destruct (Js.truthy v') eqn:Htr; split.
        -- intros [= ->]. done.
        -- intros (_ & [= ->] & _). done.
        -- discriminate.
        -- intros (_ & [= ->] & Htr'). congruence.
      * split; [discriminate|]. intros (_ & Hv & _). discriminate.
    + intros e _ ->. reflexivity.
  - cbn. split; [|split; [|split]]; try done.
    + intros v. split; [discriminate|]. intros [Hne _]. done.
    + eauto.
Qed.

End LoaderCalls.

(** ** The document shell *)

Section ShellProperties.
Import Root Shell.

(** X8. A page whose root loader returned is rendered inside the
    providers and [Layout] with exactly what the loader produced: the
    [lang] attribute is the language of the request's locale, [Layout]
    is keyed by language and country joined by a hyphen and gets the
    layout data, the analytics provider gets the tracking promise of the
    one [cart.get()] call, the shop and the consent, and the review
    provider gets its bootstrap data and subscriber id. *)
Theorem shell_of_loader_data (C : Type) (imp : Imports) (w : World)
    (args : LoaderFunctionArgs) (data : gmap string Field) (t : list Event)
    (children : C) :
  loader imp w args = (Ok data, t) →
  ∃ locale layout okendo,
    i18n (context args) = Some locale
    ∧ outcome w LayoutQuery = Fulfilled layout
    ∧ outcome w OkendoProviderData = Fulfilled okendo
    ∧ MainLayout imp (loaderData (loader imp w args)) children =
        Ok {| lang := Js.Str (language locale);
              okendoSubscriberMeta :=
                Some (Plain (PUBLIC_OKENDO_SUBSCRIBER_ID (env (context args))));
              body := WithLayout
                {| okendoProviderData := Plain okendo;
                   analyticsCart := Pending (OnCall CartGet (onSettle "cart"));
                   analyticsShop :=
                     trackPromise "shop"
                       (getShopAnalytics imp
                          (PUBLIC_STOREFRONT_ID (env (context args))));
                   analyticsConsent := Plain (Js.Obj [
                     ("checkoutDomain",
                        PUBLIC_CHECKOUT_DOMAIN (env (context args)));
                     ("storefrontAccessToken",
                        PUBLIC_STOREFRONT_API_TOKEN (env (context args)));
                     ("withPrivacyBanner", Js.Bool true)]);
                   layoutKey := language locale +:+ "-" +:+ country locale;
                   layoutProp := Plain layout |}
                children |}.
Proof.
  intros Hrun.
  destruct (loader_returns _ _ _ _ _ Hrun)
    as (locale & layout & okendo & Hl & Hlay & _ & Hok & Hdata & _).
  exists locale, layout, okendo. do 3 (split; [assumption|]).
  unfold loaderData. rewrite Hrun. cbn [fst]. subst data.
  vm_compute. reflexivity.
Qed.

Lemma shell_of_loader_data_witness :
  ∃ doc, MainLayout Sample.imports
           (loaderData (loader Sample.imports Sample.allGood Sample.localized))
           Shell.OutletPage = Ok doc
         ∧ lang doc = Js.Str "FR" ∧ mountedKey doc = Some "FR-CA".
Proof.
  destruct (shell_of_loader_data Page Sample.imports Sample.allGood
              Sample.localized _ _ OutletPage
              (sample_run Sample.allGood _ eq_refl eq_refl))
    as (locale & layout & okendo & Hl & _ & _ & Hdoc).
  injection Hl as <-.
  eexists. split; [exact Hdoc|]. split; reflexivity.
Defined.

(** X9. When the root loader threw there is no loader data, and
    whatever the shell is asked to show (the error page of
    [ErrorBoundary] included) is rendered bare: no providers, no
    [Layout], no subscriber meta tag, and the [lang] attribute is the
    language of the default locale. *)
Theorem bare_shell_after_failure (C : Type) (imp : Imports) (w : World)
    (args : LoaderFunctionArgs) (e : Js.error) (t : list Event)
    (children : C) (error : Thrown) (routeError : RouteError) :
  loader imp w args = (Throw e, t) →
  Js.nullish (DEFAULT_LOCALE imp) = false →
  MainLayout imp (loaderData (loader imp w args)) children =
    Ok {| lang := Js.prop "language" (DEFAULT_LOCALE imp);
          okendoSubscriberMeta := None;
          body := Bare children |}
  ∧ ErrorBoundary imp (loaderData (loader imp w args)) error routeError =
      Ok {| lang := Js.prop "language" (DEFAULT_LOCALE imp);
            okendoSubscriberMeta := None;
            body := Bare (errorPage error routeError) |}.
Proof.
  intros Hrun Hdefault. unfold ErrorBoundary, MainLayout, loaderData.
  rewrite Hrun. cbn. rewrite Hdefault. split; reflexivity.
Qed.

Lemma bare_shell_after_failure_witness :
  ErrorBoundary Sample.imports
    (loaderData (loader Sample.imports Sample.layoutEmpty Sample.localized))
    (NotAnError Js.Undefined) (ErrorResponse 500 (Js.Str "Oops"))
  = Ok {| lang := Js.Str "EN"; okendoSubscriberMeta := None;
          body := Bare (GenericError (Some (Message "500 Oops"))) |}.
Proof.
  refine (proj2 (bare_shell_after_failure Page Sample.imports Sample.layoutEmpty
                   Sample.localized
                   (Js.InvariantError "No data returned from Shopify API")
                   _ OutletPage (NotAnError Js.Undefined)
                   (ErrorResponse 500 (Js.Str "Oops")) _ _));
    reflexivity.
Defined.

(** Joining two strings with a hyphen loses nothing when the first has
    no hyphen. *)
Lemma hyphen_join_inj (a a' b b' : string) :
  hyphenFree a = true → hyphenFree a' = true →
  a +:+ "-" +:+ b = a' +:+ "-" +:+ b' → a = a' ∧ b = b'.
Proof.
  revert a'. induction a as [|c a IH]; intros [|c' a'] Ha Ha' Heq;
    cbn in Ha, Ha';
    cbv beta iota delta [String.append] in Heq; fold String.append in Heq.
  - by injection Heq as ->.
  - injection Heq as <- _. apply andb_prop in Ha' as [Hc _]. done.
  - injection Heq as -> _. apply andb_prop in Ha as [Hc _]. done.
  - injection Heq as -> Heq.
    apply andb_prop in Ha as [_ Ha]. apply andb_prop in Ha' as [_ Ha'].
    destruct (IH a' Ha Ha' Heq) as [-> ->]. done.
Qed.

(** X10. The key of [Layout] tells the locale apart: two pages whose
    loaders returned and whose [Layout] keys are equal were loaded for
    the same language and country, provided the language codes contain
    no hyphen.  So a change of locale always mounts a fresh [Layout]. *)
Theorem layout_key_tells_locale (C : Type) (imp : Imports) (w1 w2 : World)
    (args1 args2 : LoaderFunctionArgs) (data1 data2 : gmap string Field)
    (t1 t2 : list Event) (l1 l2 : I18n) (c1 c2 : C) (doc1 doc2 : Document C) :
  loader imp w1 args1 = (Ok data1, t1) →
  loader imp w2 args2 = (Ok data2, t2) →
  i18n (context args1) = Some l1 → i18n (context args2) = Some l2 →
  hyphenFree (language l1) = true → hyphenFree (language l2) = true →
  MainLayout imp (Some data1) c1 = Ok doc1 →
  MainLayout imp (Some data2) c2 = Ok doc2 →
  mountedKey doc1 = mountedKey doc2 →
  l1 = l2.
Proof.
  intros Hrun1 Hrun2 Hl1 Hl2 Hfree1 Hfree2 Hdoc1 Hdoc2 Hkey.
  destruct (loader_returns _ _ _ _ _ Hrun1)
    as (l1' & lay1 & ok1 & Hl1' & _ & _ & _ & -> & _).
  destruct (loader_returns _ _ _ _ _ Hrun2)
    as (l2' & lay2 & ok2 & Hl2' & _ & _ & _ & -> & _).
  assert (l1' = l1) as -> by congruence.
  assert (l2' = l2) as -> by congruence.
  vm_compute in Hdoc1. vm_compute in Hdoc2.
  injection Hdoc1 as <-. injection Hdoc2 as <-.
  cbn in Hkey. injection Hkey as Hkey.
  destruct l1 as [lang1 ctry1], l2 as [lang2 ctry2]; cbn in *.
  destruct (hyphen_join_inj _ _ _ _ Hfree1 Hfree2 Hkey) as [-> ->].
  reflexivity.
Qed.

Lemma layout_key_tells_locale_witness :
  ∃ data1 data2 t1 t2 doc1 doc2,
    loader Sample.imports Sample.allGood Sample.localized = (Ok data1, t1)
    ∧ loader Sample.imports Sample.headerDown Sample.localized = (Ok data2, t2)
    ∧ MainLayout Sample.imports (Some data1) OutletPage = Ok doc1
    ∧ MainLayout Sample.imports (Some data2) (NotFound (Js.Str "page")) = Ok doc2
    ∧ mountedKey doc1 = mountedKey doc2
    ∧ {| language := "FR"; country := "CA" |}
      = {| language := "FR"; country := "CA" |}.
Proof.
  eexists _, _, _, _, _, _.
  pose proof (sample_run Sample.allGood _ eq_refl eq_refl) as Hrun1.
  pose proof (sample_run Sample.headerDown _ eq_refl eq_refl) as Hrun2.
  split; [exact Hrun1|]. split; [exact Hrun2|].
  split; [vm_compute; reflexivity|]. split; [vm_compute; reflexivity|].
  split; [reflexivity|].
  eapply (layout_key_tells_locale Page Sample.imports Sample.allGood
            Sample.headerDown Sample.localized Sample.localized
            _ _ _ _ _ _ OutletPage (NotFound (Js.Str "page")) _ _
            Hrun1 Hrun2);
    try reflexivity; vm_compute; reflexivity.
Defined.

(** The key also separates the sample storefronts. *)
Example keys_of_two_locales :
  mountedKey <$> (match MainLayout Sample.imports
      (loaderData (loader Sample.imports Sample.allGood Sample.localized))
      OutletPage with Ok d => Some d | Throw _ => None end)
  = Some (Some "FR-CA")
  ∧ mountedKey <$> (match MainLayout Sample.imports
      (loaderData (loader Sample.imports Sample.allGood Sample2.english))
      OutletPage with Ok d => Some d | Throw _ => None end)
  = Some (Some "EN-CA").
Proof. split; vm_compute; reflexivity. Qed.

(** X11. [ErrorBoundary] shows the not-found page for route error
    responses with status 404 and for nothing else; the page type it
    passes is the response's data when that is truthy and ["page"]
    otherwise. *)
Theorem not_found_iff (error : Thrown) (routeError : RouteError)
    (type : Js.value) :
  errorPage error routeError = NotFound type
  ↔ ∃ data, routeError = ErrorResponse 404 data
      ∧ type = (if Js.truthy data then data else Js.Str "page").
Proof.
  split.
  - destruct routeError as [status data|t]; cbn; [|discriminate].
    destruct (Z.eqb_spec status 404) as [->|Hne]; [|discriminate].
    intros [= <-]. eauto.
  - intros (data & -> & ->). reflexivity.
Qed.

(** X12. For anything thrown that is not a route error response, the
    error page does not depend on what the router reports: it shows the
    [error] prop when that is an [Error] instance and no details at all
    otherwise.  Such an error is never shown as not found. *)
Theorem raised_error_details (error : Thrown) (t : Thrown) :
  errorPage error (Raised t) = errorPage error (Raised (NotAnError Js.Undefined))
  ∧ (∀ e, error = ErrorInstance e →
       errorPage error (Raised t) = GenericError (Some (Original e)))
  ∧ (∀ v, error = NotAnError v →
       errorPage error (Raised t) = GenericError None)
  ∧ (∀ type, errorPage error (Raised t) ≠ NotFound type).
Proof.
  split; [reflexivity|]. split; [by intros e ->|].
  split; [by intros v ->|]. intros type. cbn. discriminate.
Qed.

End ShellProperties.

(** ** The modal *)

Section ModalHistory.
Import NcModal NcModalHistory.

Lemma closeCalls_from (s : Instance) (acts : list Action) :
  closeCalls (foldl step s acts)
  = closeCalls s + closesHeard (onCloseModal (props s)) acts.
Proof.
  revert s. induction acts as [|a acts IH]; intros s; cbn [foldl closesHeard];
    [lia|].
  rewrite IH. destruct s as [[prop notify] open deps calls].
  destruct a as [| |[prop' notify']]; cbn.
  - unfold openModal; cbn. destruct (notBoolean prop); cbn; lia.
  - unfold closeModal; cbn.
    destruct (notBoolean prop), notify; cbn; lia.
  - unfold flushEffect; cbn. case_bool_decide; cbn; lia.
Qed.

(** X13. The parent hears of every close request: after any history,
    [onCloseModal] has been called once for each [closeModal] made while
    the modal had an [onCloseModal] prop, whether or not [isOpenProp] is
    given, and never by [openModal] or by a re-render. *)
Theorem close_requests_reach_parent (p : Props) (acts : list Action) :
  closeCalls (run p acts) = closesHeard (onCloseModal p) acts.
Proof.
  unfold run. rewrite closeCalls_from.
  unfold mount, flushEffect. cbn. case_bool_decide; reflexivity.
Qed.

(** X14. A re-render changes what the modal shows only when it changes
    [isOpenProp]: with the same [isOpenProp] as the render before
    (other props may differ) the modal keeps showing what it showed, and
    with another one it shows [!!isOpenProp]; so handing a shown modal
    back (a boolean replaced by undefined) hides it. *)
Theorem rerender_visibility (p p' : Props) (acts : list Action) :
  visible (run p (acts ++ [Rerender p']))
  = if bool_decide (isOpenProp p' = isOpenProp (props (run p acts)))
    then visible (run p acts)
    else notNot (isOpenProp p').
Proof.
  unfold run. rewrite foldl_app. cbn [foldl step].
  destruct (run_settled p acts) as [Hdeps _]. unfold run in Hdeps.
  destruct (foldl step (mount p) acts) as [[prop notify] open deps calls].
  cbn in *. subst deps. unfold flushEffect, render, visible; cbn.
  repeat case_bool_decide; cbn; congruence.
Qed.

End ModalHistory.
